(** * Barcode-Scanner-API: the product-details handler of [app.py]

    A shallow embedding of [fetch_from_gemini] and of the two routes that
    call it.  The two collaborators the handler does not define itself,
    the generation service ([client.models.generate_content]) and the JSON
    decoder ([json.loads]), are parameters of the handler; a reference
    decoder ([Json.loads]) is supplied to run the handler on concrete
    replies.  The handler is written in a small writer/exception monad
    whose log records, in order, the calls the handler makes. *)

From Stdlib Require Import ZArith String Ascii Lia.
From Stdlib Require Import QArith.QArith_base.
From stdpp Require Import base option list gmap strings.

Set Warnings "-register-all".
Local Open Scope string_scope.
Local Open Scope Z_scope.

(** ** Python strings *)

Module Py.

(** The double quote and the line feed, written by their codes. *)
Definition dquote : ascii := "034"%char.
Definition newline : ascii := "010"%char.

(** [quoted s] is [s] between two double quotes. *)
Definition quoted (s : string) : string :=
  String dquote (s +:+ String dquote "").

(** [c in s] for a one-character [c]. *)
Fixpoint occurs (c : ascii) (s : string) : bool :=
  match s with
  | EmptyString => false
  | String a s' => if Ascii.eqb a c then true else occurs c s'
  end.

(** [s.find(c)]: the lowest index at which [c] occurs, [-1] if none. *)
Fixpoint find_from (s : string) (c : ascii) (i : Z) : Z :=
  match s with
  | EmptyString => -1
  | String a s' => if Ascii.eqb a c then i else find_from s' c (i + 1)
  end.

Definition find (s : string) (c : ascii) : Z := find_from s c 0.

(** [s.rfind(c)]: the highest index at which [c] occurs, [-1] if none. *)
Fixpoint rfind_from (s : string) (c : ascii) (i best : Z) : Z :=
  match s with
  | EmptyString => best
  | String a s' => rfind_from s' c (i + 1) (if Ascii.eqb a c then i else best)
  end.

Definition rfind (s : string) (c : ascii) : Z := rfind_from s c 0 (-1).

(** A slice bound: a negative bound counts from the end, and every bound
    is clamped to the string. *)
Definition clamp (len i : Z) : Z :=
  if i <? 0 then Z.max 0 (i + len) else Z.min i len.

(** [s[start:stop]]. *)
Definition slice (s : string) (start stop : Z) : string :=
  let len := Z.of_nat (String.length s) in
  let lo := clamp len start in
  let hi := clamp len stop in
  if lo <? hi then substring (Z.to_nat lo) (Z.to_nat (hi - lo)) s else "".

(** [str(b)] for a bool, as an f-string renders it. *)
Definition str_of_bool (b : bool) : string := if b then "True" else "False".

(** Truth value of an optional string: [None] and [""] are false. *)
Definition truthy (o : option string) : bool :=
  match o with
  | None => false
  | Some EmptyString => false
  | Some (String _ _) => true
  end.

(** [needle in s] for strings, as a proposition. *)
Definition contains (s needle : string) : Prop :=
  ∃ before after, s = before +:+ needle +:+ after.

End Py.

(** ** JSON values, as [json.loads] builds them

    A number is kept as its lexeme; an object is a finite map, so a
    repeated key keeps its last value, as a Python dict does. *)

Inductive json :=
| JNull
| JBool (b : bool)
| JNum (lexeme : string)
| JStr (s : string)
| JArr (items : list json)
| JObj (members : gmap string json).

(** ** The types of the generation library the handler reads or builds *)

Inductive GoogleSearch := GoogleSearch_new.

Record Tool := { google_search : option GoogleSearch }.

Record GenerateContentConfig := {
  tools : option (list Tool);
  temperature : Q
}.

Record GroundingChunkWeb := {
  uri : option string;
  title : option string
}.

(** An attribute of an object: [hasattr] tells the two cases apart. *)
Inductive attribute (A : Type) :=
| Absent
| Present (a : A).
Arguments Absent {A}.
Arguments Present {A} a.

Record GroundingChunk := { web : attribute (option GroundingChunkWeb) }.

Record GroundingMetadata := { grounding_chunks : option (list GroundingChunk) }.

Record Candidate := { grounding_metadata : option GroundingMetadata }.

Record GenerateContentResponse := {
  text : option string;
  candidates : option (list Candidate)
}.

(** What one call of the generation service does: it raises an exception
    [e], given by [str(e)], or returns a reply. *)
Inductive call_result :=
| Raises (e : string)
| Returns (response : GenerateContentResponse).

Record ProductRequest := {
  productName : string;
  country : string
}.

(** ** Exceptions and the log of calls *)

(** The exceptions that leave the handler: the [HTTPException]s it raises
    itself, and the decoder's and the dict operations' own, which it does
    not catch. *)
Inductive exn :=
| HTTPException (status_code : Z) (detail : string)
| JSONDecodeError
| TypeError.

(** The calls the log records: the generation service, the two brace
    searches of the extraction, and the decoder. *)
Inductive event :=
| Generate (model contents : string) (config : GenerateContentConfig)
| Find (sub : ascii)
| Rfind (sub : ascii)
| Loads (s : string).

(** A computation: the calls made so far, and an exception or a value. *)
Definition Eff (A : Type) : Type := list event * (exn + A).

#[global] Instance Eff_ret : MRet Eff := λ A a, ([], inr a).

#[global] Instance Eff_bind : MBind Eff := λ A B f m,
  match m with
  | (log, inl e) => (log, inl e)
  | (log, inr a) => let '(log', r) := f a in ((log ++ log')%list, r)
  end.

Definition raise {A} (e : exn) : Eff A := ([], inl e).

Definition emit {A} (ev : event) (a : A) : Eff A := ([ev], inr a).

Definition log_of {A} (m : Eff A) : list event := m.1.

Definition result_of {A} (m : Eff A) : exn + A := m.2.

(** The status of the HTTP response that the end of a route fixes: an
    [HTTPException] carries its own status, any other exception leaves the
    route uncaught and the server answers 500.  A returned value fixes
    none: the server still has to render it, and answers 200 or, when the
    rendering fails, 500. *)
Definition http_status {A} (m : Eff A) : option Z :=
  match result_of m with
  | inr _ => None
  | inl (HTTPException status_code _) => Some status_code
  | inl _ => Some 500
  end.


Definition is_loads (ev : event) : bool :=
  match ev with Loads _ => true | _ => false end.

Definition is_extraction (ev : event) : bool :=
  match ev with Find _ | Rfind _ => true | _ => false end.

(** ** A reference JSON decoder

    [Json.loads] follows the grammar [json.loads] accepts: white space
    around tokens, objects, arrays, strings with their escapes, numbers,
    and the literals [null], [true], [false], [NaN], [Infinity] and
    [-Infinity]; anything after the value but white space is an error.
    Text is a string of bytes, so a [\u] escape is stored in UTF-8. *)

Module Json.
Import Py.

Definition code (c : ascii) : N := N_of_ascii c.

Definition is_ws (c : ascii) : bool :=
  ((code c =? 32) || (code c =? 9) || (code c =? 10) || (code c =? 13))%N.

Fixpoint skip_ws (s : string) : string :=
  match s with
  | String c r => if is_ws c then skip_ws r else s
  | EmptyString => s
  end.

Definition is_digit (c : ascii) : bool :=
  ((48 <=? code c) && (code c <=? 57))%N.

(** The longest prefix of digits, and what follows it. *)
Fixpoint span_digits (s : string) : string * string :=
  match s with
  | String c r =>
      if is_digit c
      then let '(d, r') := span_digits r in (String c d, r')
      else ("", s)
  | EmptyString => ("", "")
  end.

Fixpoint strip_prefix (p s : string) : option string :=
  match p, s with
  | EmptyString, _ => Some s
  | String a p', String b s' => if Ascii.eqb a b then strip_prefix p' s' else None
  | String _ _, EmptyString => None
  end.

(** A number: an optional minus sign; then a single 0, or a non-zero
    digit and any digits; then, if present, a point and at least one
    digit; then, if present, e or E, an optional sign and at least one
    digit.  The lexeme is the longest such prefix. *)
Definition scan_number (s : string) : option (string * string) :=
  let '(sign, s1) :=
    match s with String "-"%char r => ("-", r) | _ => ("", s) end in
  let '(digits, s2) := span_digits s1 in
  match digits with
  | EmptyString => None
  | String d more =>
      let '(int, s2) :=
        if Ascii.eqb d "0"%char then ("0", more +:+ s2) else (digits, s2) in
      let '(frac, s3) :=
        match s2 with
        | String "."%char r =>
            match span_digits r with
            | (EmptyString, _) => ("", s2)
            | (f, r') => (String "."%char f, r')
            end
        | _ => ("", s2)
        end in
      let '(exp, s4) :=
        match s3 with
        | String e r =>
            if Ascii.eqb e "e"%char || Ascii.eqb e "E"%char then
              let '(sg, r1) :=
                match r with
                | String "+"%char r1 => ("+", r1)
                | String "-"%char r1 => ("-", r1)
                | _ => ("", r)
                end in
              match span_digits r1 with
              | (EmptyString, _) => ("", s3)
              | (x, r2) => (String e (sg +:+ x), r2)
              end
            else ("", s3)
        | EmptyString => ("", s3)
        end in
      Some (sign +:+ int +:+ frac +:+ exp, s4)
  end.

Definition hex_val (c : ascii) : option N :=
  let n := code c in
  if ((48 <=? n) && (n <=? 57))%N then Some (n - 48)%N
  else if ((65 <=? n) && (n <=? 70))%N then Some (n - 55)%N
  else if ((97 <=? n) && (n <=? 102))%N then Some (n - 87)%N
  else None.

Definition hex4 (a b c d : ascii) : option N :=
  x ← hex_val a; y ← hex_val b; z ← hex_val c; w ← hex_val d;
  Some (((x * 16 + y) * 16 + z) * 16 + w)%N.

(** What a string body is made of: a byte of the text, or the 16-bit
    unit of a [\u] escape. *)
Inductive item :=
| Byte (c : ascii)
| Unit16 (n : N).

(** The body of a string, from after the opening quote up to the closing
    one. *)
Fixpoint scan_items (s : string) : option (list item * string) :=
  match s with
  | EmptyString => None
  | String c r =>
      if Ascii.eqb c dquote then Some ([], r)
      else if Ascii.eqb c "\"%char then
        match r with
        | String "u"%char (String h1 (String h2 (String h3 (String h4 r')))) =>
            n ← hex4 h1 h2 h3 h4;
            '(l, rest) ← scan_items r';
            Some (Unit16 n :: l, rest)
        | String e r' =>
            b ← (if Ascii.eqb e dquote then Some dquote
                 else match e with
                      | "\"%char => Some "\"%char
                      | "/"%char => Some "/"%char
                      | "b"%char => Some "008"%char
                      | "f"%char => Some "012"%char
                      | "n"%char => Some "010"%char
                      | "r"%char => Some "013"%char
                      | "t"%char => Some "009"%char
                      | _ => None
                      end);
            '(l, rest) ← scan_items r';
            Some (Byte b :: l, rest)
        | EmptyString => None
        end
      else if (code c <? 32)%N then None
      else '(l, rest) ← scan_items r; Some (Byte c :: l, rest)
  end.

Definition byte (n : N) : ascii := ascii_of_N n.

(** UTF-8 of a code point. *)
Definition utf8 (n : N) : string :=
  (if n <? 128 then String (byte n) ""
   else if n <? 2048 then
     String (byte (192 + n / 64)) (String (byte (128 + n mod 64)) "")
   else if n <? 65536 then
     String (byte (224 + n / 4096))
       (String (byte (128 + (n / 64) mod 64)) (String (byte (128 + n mod 64)) ""))
   else
     String (byte (240 + n / 262144))
       (String (byte (128 + (n / 4096) mod 64))
          (String (byte (128 + (n / 64) mod 64)) (String (byte (128 + n mod 64)) ""))))%N.

Definition is_high (n : N) : bool := ((55296 <=? n) && (n <=? 56319))%N.
Definition is_low (n : N) : bool := ((56320 <=? n) && (n <=? 57343))%N.

(** A high surrogate followed at once by a low one is one code point. *)
Fixpoint decode_items (l : list item) : string :=
  match l with
  | [] => ""
  | Byte c :: l' => String c (decode_items l')
  | Unit16 hi :: l' =>
      match l' with
      | Unit16 lo :: l'' =>
          if is_high hi && is_low lo
          then utf8 (65536 + (hi - 55296) * 1024 + (lo - 56320))%N +:+ decode_items l''
          else utf8 hi +:+ decode_items l'
      | _ => utf8 hi +:+ decode_items l'
      end
  end.

Definition scan_string (s : string) : option (string * string) :=
  '(l, rest) ← scan_items s; Some (decode_items l, rest).

Definition literal (p : string) (v : json) (s : string) : option (json * string) :=
  rest ← strip_prefix p s; Some (v, rest).

Definition scan_atom (s : string) : option (json * string) :=
  match literal "null" JNull s with Some r => Some r | None =>
  match literal "true" (JBool true) s with Some r => Some r | None =>
  match literal "false" (JBool false) s with Some r => Some r | None =>
  match scan_number s with Some (n, rest) => Some (JNum n, rest) | None =>
  match literal "NaN" (JNum "NaN") s with Some r => Some r | None =>
  match literal "Infinity" (JNum "Infinity") s with Some r => Some r | None =>
  literal "-Infinity" (JNum "-Infinity") s
  end end end end end end.

(** One value at the head of [s]; [value], [members] and [elements] each
    use one unit of [fuel] per call. *)
Fixpoint value (fuel : nat) (s : string) : option (json * string) :=
  match fuel with
  | O => None
  | S fuel =>
      match s with
      | EmptyString => None
      | String c r =>
          if Ascii.eqb c dquote then
            '(str, rest) ← scan_string r; Some (JStr str, rest)
          else if Ascii.eqb c "{"%char then
            match skip_ws r with
            | String "}"%char rest => Some (JObj ∅, rest)
            | r' => members fuel r' ∅
            end
          else if Ascii.eqb c "["%char then
            match skip_ws r with
            | String "]"%char rest => Some (JArr [], rest)
            | r' => elements fuel r' []
            end
          else scan_atom s
      end
  end
with members (fuel : nat) (s : string) (acc : gmap string json)
    : option (json * string) :=
  match fuel with
  | O => None
  | S fuel =>
      match s with
      | String c r =>
          if Ascii.eqb c dquote then
            '(key, r1) ← scan_string r;
            match skip_ws r1 with
            | String ":"%char r2 =>
                '(v, r3) ← value fuel (skip_ws r2);
                match skip_ws r3 with
                | String ","%char r4 => members fuel (skip_ws r4) (<[key := v]> acc)
                | String "}"%char rest => Some (JObj (<[key := v]> acc), rest)
                | _ => None
                end
            | _ => None
            end
          else None
      | EmptyString => None
      end
  end
with elements (fuel : nat) (s : string) (acc : list json)
    : option (json * string) :=
  match fuel with
  | O => None
  | S fuel =>
      '(v, r1) ← value fuel s;
      match skip_ws r1 with
      | String ","%char r2 => elements fuel (skip_ws r2) (acc ++ [v])%list
      | String "]"%char rest => Some (JArr (acc ++ [v])%list, rest)
      | _ => None
      end
  end.

(** [json.loads(s)]: [None] stands for a [JSONDecodeError].  A bracket
    costs two units of fuel, any other token at most one. *)
Definition loads (s : string) : option json :=
  '(v, rest) ← value (S (2 * String.length s)) (skip_ws s);
  match skip_ws rest with
  | EmptyString => Some v
  | String _ _ => None
  end.

End Json.

(** ** The handler *)

Import Py.

(** The lines of the prompt; the f-string opens with a line feed and ends
    with the indentation of its closing line. *)
Definition prompt_lines (product_name country : string) : list string :=
  [ "";
    "    Search Google for a real product matching " +:+ quoted product_name
      +:+ " available for consumers in " +:+ country +:+ ".";
    "    Based on the search results, generate a single JSON object with the exact structure below.";
    "    Your entire response MUST be only this JSON object and nothing else.";
    "";
    "    {";
    "        " +:+ quoted "productName" +:+ ": " +:+ quoted "string" +:+ ",";
    "        " +:+ quoted "brand" +:+ ": " +:+ quoted "string" +:+ ",";
    "        " +:+ quoted "description" +:+ ": " +:+ quoted "string (a detailed paragraph)" +:+ ",";
    "        " +:+ quoted "category" +:+ ": " +:+ quoted "string" +:+ ",";
    "        " +:+ quoted "price" +:+ ": " +:+ quoted "number" +:+ ",";
    "        " +:+ quoted "currency" +:+ ": "
      +:+ quoted "string (e.g., USD, EUR, INR, based on the country)" +:+ ",";
    "        " +:+ quoted "specifications" +:+ ": [{ " +:+ quoted "key" +:+ ": "
      +:+ quoted "string" +:+ ", " +:+ quoted "value" +:+ ": " +:+ quoted "string" +:+ " }],";
    "        " +:+ quoted "barcode" +:+ ": "
      +:+ quoted "string (a plausible 12 or 13-digit barcode)" +:+ ",";
    "        " +:+ quoted "isEdible" +:+ ": " +:+ quoted "boolean" +:+ ",";
    "        " +:+ quoted "healthBenefits" +:+ ": [" +:+ quoted "string" +:+ "],";
    "        " +:+ quoted "ingredients" +:+ ": [" +:+ quoted "string" +:+ "],";
    "        " +:+ quoted "manufacturedIn" +:+ ": " +:+ quoted "string (country name)" +:+ ",";
    "        " +:+ quoted "availableStores" +:+ ": ["
      +:+ quoted "string (names of stores in the specified country)" +:+ "],";
    "        " +:+ quoted "visualDescription" +:+ ": " +:+ quoted "string";
    "    }";
    "    " ].

Fixpoint join_lines (lines : list string) : string :=
  match lines with
  | [] => ""
  | [l] => l
  | l :: rest => l +:+ String newline (join_lines rest)
  end.

Definition prompt (product_name country : string) : string :=
  join_lines (prompt_lines product_name country).

(** [config] of the handler, by the search flag. *)
Definition config_for (use_search : bool) : GenerateContentConfig :=
  if use_search
  then {| tools := Some [ {| google_search := Some GoogleSearch_new |} ];
          temperature := 1 # 2 |}
  else {| tools := None; temperature := 1 # 2 |}.


(** *** Reading the grounding metadata

    [None] stands for an exception raised inside the [try] block. *)

Definition json_of_attr (o : option string) : json :=
  match o with
  | Some s => JStr s
  | None => JNull
  end.

(** [{"uri": chunk.web.uri, "title": chunk.web.title}]. *)
Definition source_entry (w : GroundingChunkWeb) : json :=
  JObj (<["title" := json_of_attr (title w)]> (<["uri" := json_of_attr (uri w)]> ∅)).

(** The body of the loop for one chunk, from the sources gathered so far. *)
Definition chunk_step (sources : list json) (chunk : GroundingChunk)
    : option (list json) :=
  match web chunk with
  | Absent => Some sources
  | Present None => None
  | Present (Some w) =>
      if truthy (uri w) && truthy (title w)
      then Some (sources ++ [source_entry w])%list
      else Some sources
  end.

Fixpoint for_chunks (grounding : list GroundingChunk) (sources : list json)
    : option (list json) :=
  match grounding with
  | [] => Some sources
  | chunk :: rest =>
      sources' ← chunk_step sources chunk;
      for_chunks rest sources'
  end.

(** [response.candidates[0].grounding_metadata.grounding_chunks]. *)
Definition grounding_of (response : GenerateContentResponse)
    : option (list GroundingChunk) :=
  cs ← candidates response;
  c ← head cs;
  gm ← grounding_metadata c;
  grounding_chunks gm.

Definition read_grounding (response : GenerateContentResponse)
    : option (list json) :=
  grounding ← grounding_of response;
  for_chunks grounding [].

(** [sources] after the [try]/[except]: an exception resets it to []. *)
Definition grounding_sources (response : GenerateContentResponse) : list json :=
  match read_grounding response with
  | Some sources => sources
  | None => []
  end.

(** The last three statements, on a dict. *)
Definition finish (product_data : gmap string json) (sources : list json)
    : gmap string json :=
  let product_data :=
    if bool_decide (is_Some (product_data !! "visualDescription"))
    then delete "visualDescription" product_data
    else product_data in
  <["sources" := JArr sources]> product_data.

(** [start == -1 or end == -1 or end < start]. *)
Definition no_json (start end_ : Z) : bool :=
  (start =? -1) || (end_ =? -1) || (end_ <? start).

Section Handler.

(** [client.models.generate_content(model=, contents=, config=)]. *)
Variable generate_content : string → string → GenerateContentConfig → call_result.

(** [json.loads]; [None] stands for a [JSONDecodeError]. *)
Variable json_loads : string → option json.

Definition call_generate (model contents : string) (config : GenerateContentConfig)
    : Eff call_result :=
  emit (Generate model contents config) (generate_content model contents config).

(** [json.loads(s)], logged whether it returns or raises. *)
Definition call_loads (s : string) : Eff json :=
  match json_loads s with
  | Some v => emit (Loads s) v
  | None => ([Loads s], inl JSONDecodeError)
  end.

(** The handler.  Its last three statements need a dict: on any other
    decoded value the item deletion or assignment raises a [TypeError]. *)
Definition fetch_from_gemini (product_name country : string) (use_search : bool)
    : Eff (gmap string json) :=
  let prompt := prompt product_name country in
  let config := config_for use_search in
  outcome ← call_generate "gemini-2.5-flash" prompt config;
  match outcome with
  | Raises e =>
      raise (HTTPException 500
               ("Gemini API call failed (use_search=" +:+ str_of_bool use_search
                  +:+ "): " +:+ e))
  | Returns response =>
      match text response with
      | None | Some EmptyString =>
          raise (HTTPException 500 "Empty response from Gemini API")
      | Some raw_text =>
          start ← emit (Find "{"%char) (find raw_text "{"%char);
          end_ ← emit (Rfind "}"%char) (rfind raw_text "}"%char);
          if no_json start end_
          then raise (HTTPException 500 "No valid JSON found in response")
          else
            product_data ← call_loads (slice raw_text start (end_ + 1));
            let sources := grounding_sources response in
            match product_data with
            | JObj d => mret (finish d sources)
            | _ => raise TypeError
            end
      end
  end.

Definition fetch_product_details_post (request : ProductRequest) (useSearch : bool)
    : Eff (gmap string json) :=
  fetch_from_gemini (productName request) (country request) useSearch.

Definition fetch_product_details_get (productName country : string) (useSearch : bool)
    : Eff (gmap string json) :=
  fetch_from_gemini productName country useSearch.

End Handler.

(** ** Runs of the handler *)

Section Runs.

Variable generate_content : string → string → GenerateContentConfig → call_result.
Variable json_loads : string → option json.
Variables (product_name country : string) (use_search : bool).

(** The one call of the generation service the handler makes. *)
Definition the_call : event :=
  Generate "gemini-2.5-flash" (prompt product_name country) (config_for use_search).

Definition outcome : call_result :=
  generate_content "gemini-2.5-flash" (prompt product_name country)
    (config_for use_search).

Definition run : Eff (gmap string json) :=
  fetch_from_gemini generate_content json_loads product_name country use_search.

(** What the handler does once the reply has a non-empty text. *)
Definition after_text (response : GenerateContentResponse) (raw_text : string)
    : Eff (gmap string json) :=
  let start := find raw_text "{"%char in
  let end_ := rfind raw_text "}"%char in
  let span := slice raw_text start (end_ + 1) in
  if no_json start end_
  then ([the_call; Find "{"%char; Rfind "}"%char],
        inl (HTTPException 500 "No valid JSON found in response"))
  else
    match json_loads span with
    | None =>
        ([the_call; Find "{"%char; Rfind "}"%char; Loads span], inl JSONDecodeError)
    | Some (JObj d) =>
        ([the_call; Find "{"%char; Rfind "}"%char; Loads span],
         inr (finish d (grounding_sources response)))
    | Some _ =>
        ([the_call; Find "{"%char; Rfind "}"%char; Loads span], inl TypeError)
    end.

End Runs.

(** ** Grounding metadata: what the claims speak of *)

(** The ways the grounding metadata of a reply is absent or cannot be
    read: a level of [response.candidates[0].grounding_metadata
    .grounding_chunks] is missing, there are no chunks, or the [try] block
    raises, as it does on a chunk whose [web] is [None]. *)
Inductive unreadable_grounding (response : GenerateContentResponse) : Prop :=
| no_candidates :
    candidates response = None → unreadable_grounding response
| empty_candidates :
    candidates response = Some [] → unreadable_grounding response
| no_metadata (c : Candidate) (cs : list Candidate) :
    candidates response = Some (c :: cs) →
    grounding_metadata c = None →
    unreadable_grounding response
| no_chunk_list (c : Candidate) (cs : list Candidate) (gm : GroundingMetadata) :
    candidates response = Some (c :: cs) →
    grounding_metadata c = Some gm →
    grounding_chunks gm = None →
    unreadable_grounding response
| no_chunks :
    grounding_of response = Some [] → unreadable_grounding response
| chunk_without_citation (chunks : list GroundingChunk) :
    grounding_of response = Some chunks →
    Exists (λ chunk, web chunk = Present None) chunks →
    unreadable_grounding response
| reading_raises :
    read_grounding response = None → unreadable_grounding response.

(** In the claim's words: the {uri, title} entry of a chunk whose web
    citation has both a non-empty uri and a non-empty title; no entry for
    any other chunk. *)
Definition cited (chunk : GroundingChunk) : option json :=
  match web chunk with
  | Present (Some w) =>
      match uri w, title w with
      | Some (String a u), Some (String b t) =>
          Some (JObj {[ "uri" := JStr (String a u); "title" := JStr (String b t) ]})
      | _, _ => None
      end
  | _ => None
  end.

(** One entry per cited chunk, in the order of the chunks. *)
Definition cited_sources (chunks : list GroundingChunk) : list json :=
  omap cited chunks.

(** A chunk the loop body reads without raising: it has no [web]
    attribute, or its [web] is a citation object. *)
Definition readable (chunk : GroundingChunk) : Prop :=
  web chunk ≠ Present None.

(** ** Concrete collaborators and replies, to run the handler *)

(** A generation service that answers every call with [r]. *)
Definition always (r : call_result)
    : string → string → GenerateContentConfig → call_result :=
  λ _ _ _, r.

Definition text_reply (raw_text : string) : GenerateContentResponse :=
  {| text := Some raw_text; candidates := None |}.

Definition chunks_reply (raw_text : string) (chunks : list GroundingChunk)
    : GenerateContentResponse :=
  {| text := Some raw_text;
     candidates :=
       Some [ {| grounding_metadata := Some {| grounding_chunks := Some chunks |} |} ] |}.

Definition widget_object : string :=
  "{" +:+ quoted "productName" +:+ ":" +:+ quoted "Widget" +:+ ","
      +:+ quoted "brand" +:+ ":" +:+ quoted "Acme" +:+ "}".

Definition widget_text : string := "Sure! " +:+ widget_object +:+ " thanks".

Definition widget_record : gmap string json :=
  {[ "productName" := JStr "Widget"; "brand" := JStr "Acme" ]}.

(** A reply whose object carries the two keys the handler rewrites. *)
Definition described_text : string :=
  "{" +:+ quoted "brand" +:+ ":" +:+ quoted "Acme" +:+ ","
      +:+ quoted "visualDescription" +:+ ":" +:+ quoted "a red box" +:+ ","
      +:+ quoted "sources" +:+ ":" +:+ quoted "made up" +:+ "}".

Definition described_record : gmap string json :=
  {[ "brand" := JStr "Acme";
     "visualDescription" := JStr "a red box";
     "sources" := JStr "made up" ]}.

Definition widget_page : GroundingChunk :=
  {| web := Present (Some {| uri := Some "https://acme.example/widget";
                             title := Some "Acme Widget" |}) |}.

Definition shop_page : GroundingChunk :=
  {| web := Present (Some {| uri := Some "https://shop.example/w";
                             title := Some "Shop" |}) |}.

Definition untitled_page : GroundingChunk :=
  {| web := Present (Some {| uri := Some "https://acme.example/raw"; title := None |}) |}.

Definition unnamed_page : GroundingChunk :=
  {| web := Present (Some {| uri := Some ""; title := Some "No address" |}) |}.

Definition webless_chunk : GroundingChunk := {| web := Absent |}.

(** A chunk whose [web] is [None], as a chunk of another kind has it. *)
Definition uncited_chunk : GroundingChunk := {| web := Present None |}.

Definition brand_object : string :=
  "{" +:+ quoted "brand" +:+ ":" +:+ quoted "Acme" +:+ "}".

(** ** Start-up: the module level of [app.py]

    The environment is taken as [load_dotenv()] leaves it.  The client is
    given by the keyword arguments [genai.Client] is called with. *)

Module Startup.

Record HttpOptions := { api_version : string }.

(** The keyword arguments of [genai.Client(...)]; [None] for one that is
    not passed. *)
Record ClientArgs := {
  vertexai : option bool;
  api_key : option string;
  project : option string;
  location : option string;
  http_options : option HttpOptions
}.

Inductive startup_error :=
| RuntimeError (msg : string).

(** [str.lower()] on one character: the letters A to Z.  No other
    character lowers to a letter of "true" or to "1", which is all the
    result is compared with. *)
Definition lower_char (c : ascii) : ascii :=
  let n := N_of_ascii c in
  if ((65 <=? n) && (n <=? 90))%N then ascii_of_N (n + 32) else c.

Fixpoint lower (s : string) : string :=
  match s with
  | EmptyString => EmptyString
  | String c s' => String (lower_char c) (lower s')
  end.

(** [os.getenv(k)] and [os.getenv(k, d)]. *)
Definition getenv (environ : gmap string string) (k : string) : option string :=
  environ !! k.

Definition getenv_default (environ : gmap string string) (k d : string) : string :=
  default d (environ !! k).

(** [USE_VERTEXAI]. *)
Definition use_vertexai (environ : gmap string string) : bool :=
  bool_decide
    (lower (getenv_default environ "GOOGLE_GENAI_USE_VERTEXAI" "False")
       ∈ ["true"; "1"]).

(** The module level, from [API_KEY = ...] to the construction of
    [client]: a [RuntimeError], or the arguments of the client. *)
Definition startup (environ : gmap string string) : startup_error + ClientArgs :=
  let API_KEY := getenv environ "API_KEY" in
  if negb (truthy API_KEY)
  then inl (RuntimeError "API_KEY environment variable is not set")
  else
    if use_vertexai environ then
      let project := getenv environ "GOOGLE_CLOUD_PROJECT" in
      let location := getenv environ "GOOGLE_CLOUD_LOCATION" in
      if negb (truthy project) || negb (truthy location)
      then inl (RuntimeError
                  "GOOGLE_CLOUD_PROJECT and GOOGLE_CLOUD_LOCATION must be set when using Vertex AI")
      else inr {| vertexai := Some true;
                  api_key := None;
                  project := project;
                  location := location;
                  http_options := Some {| api_version := "v1" |} |}
    else inr {| vertexai := None;
                api_key := API_KEY;
                project := None;
                location := None;
                http_options := None |}.

(** An environment for direct API-key use, and one for Vertex AI. *)
Definition key_environ : gmap string string :=
  {[ "API_KEY" := "k-123" ]}.

Definition vertex_environ : gmap string string :=
  {[ "API_KEY" := "k-123";
     "GOOGLE_GENAI_USE_VERTEXAI" := "TRUE";
     "GOOGLE_CLOUD_PROJECT" := "acme-project";
     "GOOGLE_CLOUD_LOCATION" := "europe-west1" ]}.

End Startup.

(** ** More of what the properties below speak of *)

(** A source entry as the loop appends it: a dict of a non-empty "uri" and
    a non-empty "title". *)
Definition source_shaped (v : json) : Prop :=
  ∃ a u b t,
    v = JObj {[ "uri" := JStr (String a u); "title" := JStr (String b t) ]}.

(** A chunk on which the loop body raises. *)
Definition web_is_none (chunk : GroundingChunk) : bool :=
  match web chunk with
  | Present None => true
  | _ => false
  end.

Definition is_type_error (r : exn + gmap string json) : bool :=
  match r with
  | inl TypeError => true
  | _ => false
  end.

(** A text from an opening brace to a closing one. *)
Definition braced (s : string) : Prop :=
  ∃ body, s = String "{"%char (body +:+ "}").

(** ** Facts about [find], [rfind] and slices *)

Section PyFacts.
Import Py.

Variable c : ascii.

Lemma append_nil (s : string) : "" +:+ s = s.
Proof. reflexivity. Qed.

Lemma append_cons (x : ascii) (a b : string) :
  String x a +:+ b = String x (a +:+ b).
Proof. reflexivity. Qed.

Lemma length_app (a b : string) :
  String.length (a +:+ b) = (String.length a + String.length b)%nat.
Proof.
  induction a as [|x a IH]; [done |].
  rewrite append_cons. simpl. by rewrite IH.
Qed.

Lemma app_assoc_str (a b d : string) : (a +:+ b) +:+ d = a +:+ (b +:+ d).
Proof.
  induction a as [|x a IH]; [done |].
  by rewrite !append_cons, IH.
Qed.

Lemma occurs_app (a b : string) :
  occurs c (a +:+ b) = occurs c a || occurs c b.
Proof.
  induction a as [|x a IH]; [done |].
  rewrite append_cons. simpl.
  destruct (Ascii.eqb x c); [done | exact IH].
Qed.

Lemma find_from_absent (s : string) (i : Z) :
  occurs c s = false → find_from s c i = -1.
Proof.
  revert i. induction s as [|x s IH]; intros i; simpl; [done |].
  destruct (Ascii.eqb x c); [done | apply IH].
Qed.

Lemma find_from_present (s : string) (i : Z) :
  occurs c s = true →
  i ≤ find_from s c i < i + Z.of_nat (String.length s).
Proof.
  revert i. induction s as [|x s IH]; intros i; simpl; [done |].
  destruct (Ascii.eqb x c); [lia |].
  intros H. specialize (IH (i + 1) H). lia.
Qed.

Lemma find_from_app (pre rest : string) (i : Z) :
  occurs c pre = false →
  find_from (pre +:+ String c rest) c i = i + Z.of_nat (String.length pre).
Proof.
  revert i. induction pre as [|x pre IH]; intros i.
  - rewrite append_nil. simpl. rewrite Ascii.eqb_refl. lia.
  - rewrite append_cons. simpl.
    destruct (Ascii.eqb x c); [done |].
    intros H. rewrite (IH _ H). lia.
Qed.

Lemma rfind_from_absent (s : string) (i best : Z) :
  occurs c s = false → rfind_from s c i best = best.
Proof.
  revert i best. induction s as [|x s IH]; intros i best; simpl; [done |].
  destruct (Ascii.eqb x c); [done | apply IH].
Qed.

Lemma rfind_from_bounds (s : string) (i best : Z) :
  rfind_from s c i best = best ∨
  i ≤ rfind_from s c i best < i + Z.of_nat (String.length s).
Proof.
  revert i best. induction s as [|x s IH]; intros i best; simpl; [by left |].
  destruct (IH (i + 1) (if Ascii.eqb x c then i else best)) as [-> | ?].
  - destruct (Ascii.eqb x c); [right; lia | by left].
  - right; lia.
Qed.

Lemma rfind_from_present (s : string) (i best : Z) :
  occurs c s = true →
  i ≤ rfind_from s c i best < i + Z.of_nat (String.length s).
Proof.
  revert i best. induction s as [|x s IH]; intros i best; simpl; [done |].
  destruct (Ascii.eqb x c) eqn:E.
  - intros _. destruct (rfind_from_bounds s (i + 1) i) as [-> | ?]; lia.
  - intros H. specialize (IH (i + 1) best H). lia.
Qed.

Lemma rfind_from_app (a suf : string) (i best : Z) :
  occurs c suf = false →
  rfind_from (a +:+ String c suf) c i best = i + Z.of_nat (String.length a).
Proof.
  intros H. revert i best. induction a as [|x a IH]; intros i best.
  - rewrite append_nil. simpl.
    rewrite Ascii.eqb_refl, rfind_from_absent by done. lia.
  - rewrite append_cons. simpl. rewrite IH. lia.
Qed.

(** [find] and [rfind] answer [-1] exactly when the character is absent. *)
Lemma find_absent_iff (s : string) : find s c = -1 ↔ occurs c s = false.
Proof.
  split; [| apply find_from_absent].
  destruct (occurs c s) eqn:E; [| done].
  unfold find. pose proof (find_from_present s 0 E). lia.
Qed.

Lemma rfind_absent_iff (s : string) : rfind s c = -1 ↔ occurs c s = false.
Proof.
  split; [| apply rfind_from_absent].
  destruct (occurs c s) eqn:E; [| done].
  unfold rfind. pose proof (rfind_from_present s 0 (-1) E). lia.
Qed.

End PyFacts.

Lemma substring_prefix (obj suf : string) :
  substring 0 (String.length obj) (obj +:+ suf) = obj.
Proof.
  induction obj as [|x obj IH].
  - rewrite append_nil. by destruct suf.
  - rewrite append_cons. simpl. by rewrite IH.
Qed.

Lemma substring_skip (pre s : string) (n : nat) :
  substring (String.length pre) n (pre +:+ s) = substring 0 n s.
Proof.
  induction pre as [|x pre IH]; [done |].
  rewrite append_cons. simpl. exact IH.
Qed.

(** The slice from the end of [pre] over the length of [obj] is [obj]. *)
Lemma slice_middle (pre obj suf : string) :
  Py.slice (pre +:+ obj +:+ suf)
    (Z.of_nat (String.length pre))
    (Z.of_nat (String.length pre) + Z.of_nat (String.length obj)) = obj.
Proof.
  unfold Py.slice, Py.clamp. rewrite !length_app.
  destruct (Z.ltb_spec (Z.of_nat (String.length pre)) 0) as [? | _]; [lia |].
  destruct (Z.ltb_spec (Z.of_nat (String.length pre) + Z.of_nat (String.length obj)) 0)
    as [? | _]; [lia |].
  rewrite !Z.min_l by lia.
  destruct (Z.ltb_spec (Z.of_nat (String.length pre))
              (Z.of_nat (String.length pre) + Z.of_nat (String.length obj))) as [Hlt | Hge].
  - rewrite Nat2Z.id.
    replace (Z.to_nat (Z.of_nat (String.length pre) + Z.of_nat (String.length obj)
                       - Z.of_nat (String.length pre))) with (String.length obj) by lia.
    by rewrite substring_skip, substring_prefix.
  - destruct obj; [done | simpl in Hge; lia].
Qed.

(** The span between the first opening and the last closing brace of
    [pre {body} suf], when [pre] has no opening and [suf] no closing
    brace. *)
Lemma brace_span (pre body suf : string) :
  let obj := String "{"%char (body +:+ "}") in
  let raw_text := pre +:+ obj +:+ suf in
  Py.occurs "{"%char pre = false →
  Py.occurs "}"%char suf = false →
  Py.find raw_text "{"%char = Z.of_nat (String.length pre) ∧
  Py.rfind raw_text "}"%char + 1
    = Z.of_nat (String.length pre) + Z.of_nat (String.length obj) ∧
  no_json (Py.find raw_text "{"%char) (Py.rfind raw_text "}"%char) = false ∧
  Py.slice raw_text (Py.find raw_text "{"%char) (Py.rfind raw_text "}"%char + 1) = obj.
Proof.
  intros obj raw_text Hpre Hsuf.
  assert (Hf : Py.find raw_text "{"%char = Z.of_nat (String.length pre)).
  { unfold Py.find, raw_text, obj. rewrite append_cons. by rewrite find_from_app. }
  assert (Hr : Py.rfind raw_text "}"%char
               = Z.of_nat (String.length pre) + Z.of_nat (String.length body) + 1).
  { unfold Py.rfind, raw_text, obj.
    replace (pre +:+ String "{"%char (body +:+ "}") +:+ suf)
      with ((pre +:+ String "{"%char body) +:+ String "}"%char suf).
    - rewrite rfind_from_app by done. rewrite length_app. simpl. lia.
    - by rewrite (app_assoc_str pre), !append_cons, (app_assoc_str body). }
  assert (Hlen : Z.of_nat (String.length obj) = Z.of_nat (String.length body) + 2).
  { unfold obj. simpl. rewrite length_app. simpl. lia. }
  split; [done |]. split; [lia |]. split.
  - unfold no_json. rewrite Hf, Hr.
    repeat match goal with |- context [?a =? ?b] => destruct (Z.eqb_spec a b); [lia |] end.
    destruct (Z.ltb_spec (Z.of_nat (String.length pre) + Z.of_nat (String.length body) + 1)
                (Z.of_nat (String.length pre))); [lia | done].
  - rewrite Hf.
    replace (Py.rfind raw_text "}"%char + 1)
      with (Z.of_nat (String.length pre) + Z.of_nat (String.length obj)) by lia.
    apply slice_middle.
Qed.

(** ** The paths through the handler *)

Section Paths.

Variable generate_content : string → string → GenerateContentConfig → call_result.
Variable json_loads : string → option json.
Variables (product_name country : string) (use_search : bool).

Lemma run_raises (e : string) :
  outcome generate_content product_name country use_search = Raises e →
  run generate_content json_loads product_name country use_search
    = ([the_call product_name country use_search],
       inl (HTTPException 500
              ("Gemini API call failed (use_search=" +:+ str_of_bool use_search
                 +:+ "): " +:+ e))).
Proof.
  unfold outcome, run, fetch_from_gemini, call_generate, emit, mbind, Eff_bind.
  by intros ->.
Qed.

Lemma run_empty (response : GenerateContentResponse) :
  outcome generate_content product_name country use_search = Returns response →
  truthy (text response) = false →
  run generate_content json_loads product_name country use_search
    = ([the_call product_name country use_search],
       inl (HTTPException 500 "Empty response from Gemini API")).
Proof.
  unfold outcome, run, fetch_from_gemini, call_generate, emit, mbind, Eff_bind.
  intros -> Htext.
  destruct (text response) as [[|a raw_text]|]; done.
Qed.

Lemma run_text (response : GenerateContentResponse) (raw_text : string) :
  outcome generate_content product_name country use_search = Returns response →
  text response = Some raw_text →
  raw_text ≠ "" →
  run generate_content json_loads product_name country use_search
    = after_text json_loads product_name country use_search response raw_text.
Proof.
  unfold outcome, run, fetch_from_gemini, call_generate, after_text.
  unfold call_loads, emit, mbind, Eff_bind, mret, Eff_ret, raise.
  intros -> -> Hne.
  destruct raw_text as [|a raw_text]; [done |].
  destruct (no_json _ _); [done |].
  destruct (json_loads _) as [[]|]; done.
Qed.

(** Every run is one of the three. *)
Lemma run_cases :
  (∃ e, outcome generate_content product_name country use_search = Raises e) ∨
  (∃ response,
      outcome generate_content product_name country use_search = Returns response ∧
      truthy (text response) = false) ∨
  (∃ response raw_text,
      outcome generate_content product_name country use_search = Returns response ∧
      text response = Some raw_text ∧
      raw_text ≠ "").
Proof.
  destruct (outcome generate_content product_name country use_search)
    as [e | response] eqn:E; [left; eauto |].
  right. destruct (text response) as [[|a raw_text]|] eqn:T.
  - left. exists response. by rewrite T.
  - right. by exists response, (String a raw_text).
  - left. exists response. by rewrite T.
Qed.

(** A successful run went through the decoder and [finish]. *)
Lemma run_success (record : gmap string json) :
  result_of (run generate_content json_loads product_name country use_search)
    = inr record →
  ∃ response raw_text d,
    outcome generate_content product_name country use_search = Returns response ∧
    text response = Some raw_text ∧
    raw_text ≠ "" ∧
    no_json (find raw_text "{"%char) (rfind raw_text "}"%char) = false ∧
    json_loads (slice raw_text (find raw_text "{"%char) (rfind raw_text "}"%char + 1))
      = Some (JObj d) ∧
    record = finish d (grounding_sources response).
Proof.
  destruct run_cases as [[e E] | [(response & E & T) | (response & raw_text & E & T & N)]].
  - by rewrite (run_raises _ E).
  - by rewrite (run_empty _ E T).
  - rewrite (run_text _ _ E T N). unfold after_text.
    destruct (no_json _ _) eqn:J; [done |].
    destruct (json_loads _) as [[| | | | |d]|] eqn:L; try done.
    intros [= <-]. by exists response, raw_text, d.
Qed.

End Paths.

(** ** What [finish] does to a dict *)

Lemma finish_visualDescription (d : gmap string json) (sources : list json) :
  finish d sources !! "visualDescription" = None.
Proof.
  unfold finish. rewrite lookup_insert_ne by done.
  case_bool_decide as H.
  - apply lookup_delete_eq.
  - by apply eq_None_not_Some.
Qed.

Lemma finish_sources (d : gmap string json) (sources : list json) :
  finish d sources !! "sources" = Some (JArr sources).
Proof. unfold finish. apply lookup_insert_eq. Qed.

Lemma finish_other (d : gmap string json) (sources : list json) (k : string) :
  k ≠ "visualDescription" → k ≠ "sources" →
  finish d sources !! k = d !! k.
Proof.
  intros Hv Hs. unfold finish. rewrite lookup_insert_ne by done.
  case_bool_decide; [by rewrite lookup_delete_ne | done].
Qed.

(** ** The claims *)

(** C1: a record the handler returns has no "visualDescription" key,
    whether or not the decoded object had one. *)
Theorem returned_record_has_no_visualDescription
    (generate_content : string → string → GenerateContentConfig → call_result)
    (json_loads : string → option json)
    (product_name country : string) (use_search : bool)
    (record : gmap string json) :
  result_of (fetch_from_gemini generate_content json_loads product_name country use_search)
    = inr record →
  record !! "visualDescription" = None.
Proof.
  intros H. apply run_success in H as (response & raw_text & d & _ & _ & _ & _ & _ & ->).
  apply finish_visualDescription.
Qed.

Lemma returned_record_has_no_visualDescription_witness :
  Json.loads described_text = Some (JObj described_record) ∧
  ∃ record,
    result_of (fetch_from_gemini (always (Returns (text_reply described_text)))
                 Json.loads "Widget" "DE" false) = inr record ∧
    record !! "visualDescription" = None.
Proof.
  split; [vm_compute; reflexivity |].
  eexists. split; [vm_compute; reflexivity |].
  apply (returned_record_has_no_visualDescription
           (always (Returns (text_reply described_text))) Json.loads "Widget" "DE" false).
  vm_compute. reflexivity.
Defined.

(** C10: when the span decodes to an object, the returned record agrees
    with that object on every key but "visualDescription" and "sources"
    (present with the same value, or absent in both), and its "sources" is
    the sequence read from the grounding metadata, whatever the object
    held under that key. *)
Theorem returned_record_frame
    (generate_content : string → string → GenerateContentConfig → call_result)
    (json_loads : string → option json)
    (product_name country : string) (use_search : bool)
    (response : GenerateContentResponse) (raw_text : string)
    (d : gmap string json) :
  outcome generate_content product_name country use_search = Returns response →
  text response = Some raw_text →
  raw_text ≠ "" →
  no_json (find raw_text "{"%char) (rfind raw_text "}"%char) = false →
  json_loads (slice raw_text (find raw_text "{"%char) (rfind raw_text "}"%char + 1))
    = Some (JObj d) →
  ∃ record,
    result_of (fetch_from_gemini generate_content json_loads product_name country
                 use_search) = inr record ∧
    (∀ k, k ≠ "visualDescription" → k ≠ "sources" → record !! k = d !! k) ∧
    record !! "sources" = Some (JArr (grounding_sources response)).
Proof.
  intros E T N J L.
  exists (finish d (grounding_sources response)). split; [| split].
  - change (fetch_from_gemini _ _ _ _ _)
      with (run generate_content json_loads product_name country use_search).
    rewrite (run_text _ _ _ _ _ _ _ E T N). unfold after_text. by rewrite J, L.
  - intros k. apply finish_other.
  - apply finish_sources.
Qed.

Lemma returned_record_frame_witness :
  ∃ record,
    result_of (fetch_from_gemini (always (Returns (text_reply described_text)))
                 Json.loads "Widget" "DE" false) = inr record ∧
    (∀ k, k ≠ "visualDescription" → k ≠ "sources" →
          record !! k = described_record !! k) ∧
    record !! "sources" = Some (JArr []).
Proof.
  apply (returned_record_frame
           (always (Returns (text_reply described_text))) Json.loads "Widget" "DE" false
           (text_reply described_text) described_text described_record).
  - reflexivity.
  - reflexivity.
  - discriminate.
  - vm_compute. reflexivity.
  - vm_compute. reflexivity.
Defined.

(** C3: on a non-empty reply text with no opening brace, or no closing
    brace, or whose last closing brace comes before its first opening one,
    the handler raises the 500 error "No valid JSON found in response",
    and its log holds no call of the decoder. *)
Theorem no_brace_span_is_an_error
    (generate_content : string → string → GenerateContentConfig → call_result)
    (json_loads : string → option json)
    (product_name country : string) (use_search : bool)
    (response : GenerateContentResponse) (raw_text : string) :
  outcome generate_content product_name country use_search = Returns response →
  text response = Some raw_text →
  raw_text ≠ "" →
  occurs "{"%char raw_text = false ∨
  occurs "}"%char raw_text = false ∨
  rfind raw_text "}"%char < find raw_text "{"%char →
  let m := fetch_from_gemini generate_content json_loads product_name country use_search in
  result_of m = inl (HTTPException 500 "No valid JSON found in response") ∧
  http_status m = Some 500 ∧
  Forall (λ ev, is_loads ev = false) (log_of m).
Proof.
  intros E T N H m.
  assert (J : no_json (find raw_text "{"%char) (rfind raw_text "}"%char) = true).
  { unfold no_json. destruct H as [H | [H | H]].
    - apply find_absent_iff in H. by rewrite H.
    - apply rfind_absent_iff in H. rewrite H. by rewrite orb_true_r.
    - apply Z.ltb_lt in H. rewrite H. by rewrite orb_true_r. }
  assert (M : m = after_text json_loads product_name country use_search
                    response raw_text).
  { apply (run_text _ _ _ _ _ _ _ E T N). }
  rewrite M. unfold after_text, http_status, result_of, log_of. rewrite J. simpl.
  repeat split. repeat constructor.
Qed.

Lemma no_brace_span_is_an_error_witness :
  let m := fetch_from_gemini (always (Returns (text_reply "} no object here {")))
             Json.loads "Widget" "DE" true in
  result_of m = inl (HTTPException 500 "No valid JSON found in response") ∧
  http_status m = Some 500 ∧
  Forall (λ ev, is_loads ev = false) (log_of m).
Proof.
  apply (no_brace_span_is_an_error
           (always (Returns (text_reply "} no object here {"))) Json.loads "Widget" "DE" true
           (text_reply "} no object here {") "} no object here {").
  - reflexivity.
  - reflexivity.
  - discriminate.
  - right. right. vm_compute. reflexivity.
Defined.

(** C4: on a reply whose text is absent or empty, the handler raises the
    500 error "Empty response from Gemini API", and its log holds nothing
    but the call of the service: neither brace was searched for and the
    decoder was not called. *)
Theorem empty_reply_is_an_error
    (generate_content : string → string → GenerateContentConfig → call_result)
    (json_loads : string → option json)
    (product_name country : string) (use_search : bool)
    (response : GenerateContentResponse) :
  outcome generate_content product_name country use_search = Returns response →
  text response = None ∨ text response = Some "" →
  let m := fetch_from_gemini generate_content json_loads product_name country use_search in
  result_of m = inl (HTTPException 500 "Empty response from Gemini API") ∧
  http_status m = Some 500 ∧
  log_of m = [the_call product_name country use_search] ∧
  Forall (λ ev, is_extraction ev = false ∧ is_loads ev = false) (log_of m).
Proof.
  intros E H m.
  assert (T : truthy (text response) = false) by (by destruct H as [-> | ->]).
  assert (M : m = ([the_call product_name country use_search],
                   inl (HTTPException 500 "Empty response from Gemini API"))).
  { apply (run_empty _ _ _ _ _ _ E T). }
  rewrite M. unfold http_status, result_of, log_of. simpl.
  repeat split. repeat constructor.
Qed.

Lemma empty_reply_is_an_error_witness :
  let m := fetch_from_gemini (always (Returns (text_reply ""))) Json.loads
             "Widget" "DE" false in
  result_of m = inl (HTTPException 500 "Empty response from Gemini API") ∧
  http_status m = Some 500 ∧
  log_of m = [the_call "Widget" "DE" false] ∧
  Forall (λ ev, is_extraction ev = false ∧ is_loads ev = false) (log_of m).
Proof.
  apply (empty_reply_is_an_error
           (always (Returns (text_reply ""))) Json.loads "Widget" "DE" false
           (text_reply "")).
  - reflexivity.
  - right. reflexivity.
Defined.

(** C5: when the call of the generation service raises [e], the handler
    raises a 500 error whose detail names the search mode of the attempt
    and carries the text of [e]: it reads "Gemini API call failed
    (use_search=True): <e>" with the search flag set and "Gemini API call
    failed (use_search=False): <e>" without it. *)
Theorem upstream_failure_is_an_error
    (generate_content : string → string → GenerateContentConfig → call_result)
    (json_loads : string → option json)
    (product_name country : string) (use_search : bool) (e : string) :
  outcome generate_content product_name country use_search = Raises e →
  let m := fetch_from_gemini generate_content json_loads product_name country use_search in
  ∃ detail,
    result_of m = inl (HTTPException 500 detail) ∧
    http_status m = Some 500 ∧
    detail = (if use_search
              then "Gemini API call failed (use_search=True): "
              else "Gemini API call failed (use_search=False): ") +:+ e ∧
    contains detail (if use_search then "use_search=True" else "use_search=False") ∧
    contains detail e.
Proof.
  intros E m.
  assert (M : m = run generate_content json_loads product_name country use_search)
    by reflexivity.
  rewrite M, (run_raises _ _ _ _ _ _ E). eexists. split; [reflexivity |].
  split; [reflexivity |]. split; [| split].
  - by destruct use_search.
  - exists "Gemini API call failed (", ("): " +:+ e). by destruct use_search.
  - exists ("Gemini API call failed (use_search=" +:+ str_of_bool use_search +:+ "): "), "".
    rewrite !app_assoc_str. do 3 f_equal.
    clear. induction e as [|x e IH]; [done |]. by rewrite append_cons, <- IH.
Qed.

Lemma upstream_failure_is_an_error_witness :
  (let m := fetch_from_gemini (always (Raises "quota exceeded")) Json.loads
              "Widget" "DE" true in
   ∃ detail,
     result_of m = inl (HTTPException 500 detail) ∧
     http_status m = Some 500 ∧
     detail = "Gemini API call failed (use_search=True): quota exceeded" ∧
     contains detail "use_search=True" ∧
     contains detail "quota exceeded") ∧
  (let m := fetch_from_gemini (always (Raises "quota exceeded")) Json.loads
              "Widget" "DE" false in
   ∃ detail,
     result_of m = inl (HTTPException 500 detail) ∧
     http_status m = Some 500 ∧
     detail = "Gemini API call failed (use_search=False): quota exceeded" ∧
     contains detail "use_search=False" ∧
     contains detail "quota exceeded").
Proof.
  split.
  - apply (upstream_failure_is_an_error
             (always (Raises "quota exceeded")) Json.loads "Widget" "DE" true
             "quota exceeded").
    reflexivity.
  - apply (upstream_failure_is_an_error
             (always (Raises "quota exceeded")) Json.loads "Widget" "DE" false
             "quota exceeded").
    reflexivity.
Defined.


(** C9: when both braces are found, the first opening one not after the
    last closing one, and the decoder rejects the span between them, the
    handler ends with the decoder's exception, which it does not catch;
    the response has status 500. *)
Theorem undecodable_span_is_an_error
    (generate_content : string → string → GenerateContentConfig → call_result)
    (json_loads : string → option json)
    (product_name country : string) (use_search : bool)
    (response : GenerateContentResponse) (raw_text : string) :
  outcome generate_content product_name country use_search = Returns response →
  text response = Some raw_text →
  occurs "{"%char raw_text = true →
  occurs "}"%char raw_text = true →
  find raw_text "{"%char ≤ rfind raw_text "}"%char →
  json_loads (slice raw_text (find raw_text "{"%char) (rfind raw_text "}"%char + 1))
    = None →
  let m := fetch_from_gemini generate_content json_loads product_name country use_search in
  result_of m = inl JSONDecodeError ∧
  http_status m = Some 500.
Proof.
  intros E T Ho Hc Hle L m.
  assert (N : raw_text ≠ "") by (by intros ->).
  assert (J : no_json (find raw_text "{"%char) (rfind raw_text "}"%char) = false).
  { unfold no_json.
    pose proof (find_from_present "{"%char raw_text 0 Ho) as Hf.
    pose proof (rfind_from_present "}"%char raw_text 0 (-1) Hc) as Hr.
    fold (find raw_text "{"%char) in Hf. fold (rfind raw_text "}"%char) in Hr.
    destruct (Z.eqb_spec (find raw_text "{"%char) (-1)); [lia |].
    destruct (Z.eqb_spec (rfind raw_text "}"%char) (-1)); [lia |].
    destruct (Z.ltb_spec (rfind raw_text "}"%char) (find raw_text "{"%char)); [lia | done]. }
  assert (M : m = after_text json_loads product_name country use_search
                    response raw_text).
  { apply (run_text _ _ _ _ _ _ _ E T N). }
  rewrite M. unfold after_text, http_status, result_of. by rewrite J, L.
Qed.

Lemma undecodable_span_is_an_error_witness :
  let m := fetch_from_gemini (always (Returns (text_reply "{not json}")))
             Json.loads "Widget" "DE" false in
  result_of m = inl JSONDecodeError ∧
  http_status m = Some 500.
Proof.
  apply (undecodable_span_is_an_error
           (always (Returns (text_reply "{not json}"))) Json.loads "Widget" "DE" false
           (text_reply "{not json}") "{not json}").
  - reflexivity.
  - reflexivity.
  - reflexivity.
  - reflexivity.
  - vm_compute. discriminate.
  - vm_compute. reflexivity.
Defined.

(** *** Grounding metadata *)

Lemma chunk_step_readable (sources : list json) (chunk : GroundingChunk) :
  readable chunk →
  chunk_step sources chunk
    = Some (sources ++ match cited chunk with Some x => [x] | None => [] end)%list.
Proof.
  unfold readable, chunk_step, cited.
  destruct (web chunk) as [|[w|]]; intros R.
  - by rewrite app_nil_r.
  - unfold source_entry.
    destruct (uri w) as [[|a u]|], (title w) as [[|b t]|]; simpl;
      rewrite ?app_nil_r; done.
  - done.
Qed.

Lemma for_chunks_readable (chunks : list GroundingChunk) (sources : list json) :
  Forall readable chunks →
  for_chunks chunks sources = Some (sources ++ cited_sources chunks)%list.
Proof.
  intros H. revert sources.
  induction H as [|chunk chunks R _ IH]; intros sources; simpl.
  - by rewrite app_nil_r.
  - rewrite (chunk_step_readable _ _ R). simpl. rewrite IH.
    unfold cited_sources. simpl.
    destruct (cited chunk); simpl; by rewrite <- ?app_assoc, ?app_nil_r.
Qed.

Lemma for_chunks_unreadable (chunks : list GroundingChunk) (sources : list json) :
  Exists (λ chunk, web chunk = Present None) chunks →
  for_chunks chunks sources = None.
Proof.
  intros H. revert sources.
  induction H as [chunk chunks W | chunk chunks _ IH]; intros sources; simpl.
  - unfold chunk_step. by rewrite W.
  - destruct (chunk_step sources chunk); simpl; [apply IH | done].
Qed.

Lemma unreadable_grounding_sources (response : GenerateContentResponse) :
  unreadable_grounding response → grounding_sources response = [].
Proof.
  unfold grounding_sources, read_grounding, grounding_of.
  intros [H | H | c cs H G | c cs gm H G K | H | chunks H X | H].
  - by rewrite H.
  - by rewrite H.
  - rewrite H. simpl. by rewrite G.
  - rewrite H. simpl. rewrite G. simpl. by rewrite K.
  - unfold grounding_of in H. by rewrite H.
  - unfold grounding_of in H. rewrite H. simpl.
    by rewrite (for_chunks_unreadable _ _ X).
  - unfold read_grounding, grounding_of in H. by rewrite H.
Qed.

(** C6: when the reply text decodes to an object and the grounding
    metadata is absent or reading it raises, the handler does not fail: it
    returns a record, and the record's "sources" is the empty sequence. *)
Theorem unreadable_grounding_gives_no_sources
    (generate_content : string → string → GenerateContentConfig → call_result)
    (json_loads : string → option json)
    (product_name country : string) (use_search : bool)
    (response : GenerateContentResponse) (raw_text : string)
    (d : gmap string json) :
  outcome generate_content product_name country use_search = Returns response →
  text response = Some raw_text →
  raw_text ≠ "" →
  no_json (find raw_text "{"%char) (rfind raw_text "}"%char) = false →
  json_loads (slice raw_text (find raw_text "{"%char) (rfind raw_text "}"%char + 1))
    = Some (JObj d) →
  unreadable_grounding response →
  let m := fetch_from_gemini generate_content json_loads product_name country use_search in
  ∃ record,
    result_of m = inr record ∧
    record !! "sources" = Some (JArr []).
Proof.
  intros E T N J L U m.
  assert (M : m = after_text json_loads product_name country use_search
                    response raw_text).
  { apply (run_text _ _ _ _ _ _ _ E T N). }
  rewrite M. unfold after_text, result_of. rewrite J, L. simpl.
  eexists. split; [done |].
  by rewrite finish_sources, (unreadable_grounding_sources _ U).
Qed.

Lemma unreadable_grounding_gives_no_sources_witness :
  let m := fetch_from_gemini
             (always (Returns (chunks_reply widget_text [widget_page; uncited_chunk])))
             Json.loads "Widget" "DE" true in
  ∃ record,
    result_of m = inr record ∧
    record !! "sources" = Some (JArr []).
Proof.
  apply (unreadable_grounding_gives_no_sources
           (always (Returns (chunks_reply widget_text [widget_page; uncited_chunk])))
           Json.loads "Widget" "DE" true
           (chunks_reply widget_text [widget_page; uncited_chunk]) widget_text
           widget_record).
  - reflexivity.
  - reflexivity.
  - discriminate.
  - vm_compute. reflexivity.
  - vm_compute. reflexivity.
  - apply (chunk_without_citation _ [widget_page; uncited_chunk]); [reflexivity |].
    apply Exists_cons_tl, Exists_cons_hd. reflexivity.
Defined.

(** C7, as amended: when the grounding metadata is a list of chunks each
    of which is read without raising (it has no [web] attribute, or its
    [web] is a citation object), the record's "sources" holds exactly one
    {uri, title} entry per chunk whose citation has both a non-empty uri
    and a non-empty title, in the order of the chunks, and nothing for any
    other chunk. *)
Theorem readable_chunks_give_cited_sources
    (generate_content : string → string → GenerateContentConfig → call_result)
    (json_loads : string → option json)
    (product_name country : string) (use_search : bool)
    (response : GenerateContentResponse) (raw_text : string)
    (d : gmap string json) (chunks : list GroundingChunk) :
  outcome generate_content product_name country use_search = Returns response →
  text response = Some raw_text →
  raw_text ≠ "" →
  no_json (find raw_text "{"%char) (rfind raw_text "}"%char) = false →
  json_loads (slice raw_text (find raw_text "{"%char) (rfind raw_text "}"%char + 1))
    = Some (JObj d) →
  grounding_of response = Some chunks →
  Forall readable chunks →
  ∃ record,
    result_of (fetch_from_gemini generate_content json_loads product_name country
                 use_search) = inr record ∧
    record !! "sources" = Some (JArr (cited_sources chunks)).
Proof.
  intros E T N J L G R.
  change (fetch_from_gemini _ _ _ _ _)
    with (run generate_content json_loads product_name country use_search).
  rewrite (run_text _ _ _ _ _ _ _ E T N). unfold after_text, result_of.
  rewrite J, L. simpl. eexists. split; [done |].
  rewrite finish_sources. unfold grounding_sources, read_grounding.
  rewrite G. simpl. by rewrite (for_chunks_readable _ _ R).
Qed.

Lemma readable_chunks_give_cited_sources_witness :
  let chunks := [widget_page; untitled_page; webless_chunk; unnamed_page; shop_page] in
  ∃ record,
    result_of (fetch_from_gemini (always (Returns (chunks_reply widget_text chunks)))
                 Json.loads "Widget" "DE" true) = inr record ∧
    record !! "sources"
      = Some (JArr [ JObj {[ "uri" := JStr "https://acme.example/widget";
                             "title" := JStr "Acme Widget" ]};
                     JObj {[ "uri" := JStr "https://shop.example/w";
                             "title" := JStr "Shop" ]} ]).
Proof.
  intros chunks.
  apply (readable_chunks_give_cited_sources
           (always (Returns (chunks_reply widget_text chunks)))
           Json.loads "Widget" "DE" true
           (chunks_reply widget_text chunks) widget_text widget_record chunks).
  - reflexivity.
  - reflexivity.
  - discriminate.
  - vm_compute. reflexivity.
  - vm_compute. reflexivity.
  - reflexivity.
  - repeat constructor; discriminate.
Defined.

(** C7 as first stated fails: one chunk whose [web] is [None] makes the
    [try] block raise, and the handler returns no source at all, not even
    the one of the cited chunk before it. *)
Lemma uncited_chunk_drops_every_source :
  let chunks := [widget_page; uncited_chunk] in
  cited_sources chunks
    = [ JObj {[ "uri" := JStr "https://acme.example/widget";
                "title" := JStr "Acme Widget" ]} ] ∧
  ∃ record,
    result_of (fetch_from_gemini (always (Returns (chunks_reply widget_text chunks)))
                 Json.loads "Widget" "DE" true) = inr record ∧
    record !! "sources" = Some (JArr []) ∧
    record !! "sources" ≠ Some (JArr (cited_sources chunks)).
Proof.
  intros chunks. split; [reflexivity |].
  eexists. split; [vm_compute; reflexivity |].
  split; [vm_compute; reflexivity |].
  vm_compute. discriminate.
Qed.

(** *** Extraction of the object *)

(** C2 as first stated fails: prose with a brace of its own before the
    object widens the span, and the decoder rejects it, although the
    object alone decodes. *)
Lemma prose_with_a_brace_breaks_extraction :
  let raw_text := "Here {as asked}: " +:+ brand_object in
  Json.loads brand_object = Some (JObj {[ "brand" := JStr "Acme" ]}) ∧
  slice raw_text (find raw_text "{"%char) (rfind raw_text "}"%char + 1)
    = "{as asked}: " +:+ brand_object ∧
  Json.loads (slice raw_text (find raw_text "{"%char) (rfind raw_text "}"%char + 1))
    ≠ Json.loads brand_object ∧
  result_of (fetch_from_gemini (always (Returns (text_reply raw_text))) Json.loads
               "Widget" "DE" false) = inl JSONDecodeError.
Proof.
  intros raw_text. repeat split; try (vm_compute; reflexivity).
  vm_compute. discriminate.
Qed.

(** C2, as amended: for a reply text made of prose without an opening
    brace, then one object text (from its opening to its closing brace)
    that the decoder accepts, then prose without a closing brace, the span
    from the first opening to the last closing brace is exactly the object
    text, so decoding it gives the object's content, which the handler
    returns after its last three statements.  In particular the reply
    "Sure! {...Widget...Acme...} thanks" yields the object with
    "productName" and "brand", and the returned record is that object with
    "sources" set to the empty sequence. *)
Theorem extraction_returns_the_object :
  (∀ (generate_content : string → string → GenerateContentConfig → call_result)
     (json_loads : string → option json)
     (product_name country : string) (use_search : bool)
     (response : GenerateContentResponse) (pre body suf : string)
     (d : gmap string json),
      let obj := String "{"%char (body +:+ "}") in
      let raw_text := pre +:+ obj +:+ suf in
      occurs "{"%char pre = false →
      occurs "}"%char suf = false →
      outcome generate_content product_name country use_search = Returns response →
      text response = Some raw_text →
      json_loads obj = Some (JObj d) →
      slice raw_text (find raw_text "{"%char) (rfind raw_text "}"%char + 1) = obj ∧
      json_loads (slice raw_text (find raw_text "{"%char) (rfind raw_text "}"%char + 1))
        = Some (JObj d) ∧
      result_of (fetch_from_gemini generate_content json_loads product_name country
                   use_search) = inr (finish d (grounding_sources response)))
  ∧
  (slice widget_text (find widget_text "{"%char) (rfind widget_text "}"%char + 1)
     = widget_object ∧
   Json.loads widget_object
     = Some (JObj {[ "productName" := JStr "Widget"; "brand" := JStr "Acme" ]}) ∧
   ∀ (product_name country : string) (use_search : bool),
     result_of (fetch_from_gemini (always (Returns (text_reply widget_text))) Json.loads
                  product_name country use_search)
       = inr {[ "productName" := JStr "Widget"; "brand" := JStr "Acme";
                "sources" := JArr [] ]}).
Proof.
  split.
  - intros generate_content json_loads product_name country use_search response
      pre body suf d obj raw_text Hpre Hsuf E T L.
    destruct (brace_span pre body suf Hpre Hsuf) as (_ & _ & J & S).
    fold obj in J, S. fold raw_text in J, S.
    assert (N : raw_text ≠ "").
    { unfold raw_text, obj. destruct pre; [rewrite append_nil | rewrite append_cons]; done. }
    split; [exact S |]. split; [by rewrite S |].
    change (fetch_from_gemini _ _ _ _ _)
      with (run generate_content json_loads product_name country use_search).
    rewrite (run_text _ _ _ _ _ _ _ E T N). unfold after_text.
    by rewrite J, S, L.
  - split; [vm_compute; reflexivity |]. split; [vm_compute; reflexivity |].
    intros product_name country use_search.
    change (fetch_from_gemini _ _ _ _ _)
      with (run (always (Returns (text_reply widget_text))) Json.loads
              product_name country use_search).
    rewrite (run_text _ _ _ _ _ (text_reply widget_text) widget_text) by done.
    unfold result_of. vm_compute. reflexivity.
Qed.

Lemma extraction_returns_the_object_witness :
  let raw_text := widget_text in
  slice raw_text (find raw_text "{"%char) (rfind raw_text "}"%char + 1) = widget_object ∧
  Json.loads (slice raw_text (find raw_text "{"%char) (rfind raw_text "}"%char + 1))
    = Some (JObj widget_record) ∧
  result_of (fetch_from_gemini (always (Returns (text_reply widget_text))) Json.loads
               "Widget" "DE" false)
    = inr (finish widget_record []).
Proof.
  apply (proj1 extraction_returns_the_object
           (always (Returns (text_reply widget_text))) Json.loads "Widget" "DE" false
           (text_reply widget_text) "Sure! "
           (quoted "productName" +:+ ":" +:+ quoted "Widget" +:+ ","
              +:+ quoted "brand" +:+ ":" +:+ quoted "Acme")
           " thanks" widget_record).
  - reflexivity.
  - reflexivity.
  - reflexivity.
  - reflexivity.
  - vm_compute. reflexivity.
Defined.


(** ** Further properties of the code *)

(** *** The span between the braces *)

Lemma first_occurrence (c : ascii) (s : string) :
  occurs c s = true →
  ∃ pre rest, s = pre +:+ String c rest ∧ occurs c pre = false.
Proof.
  induction s as [|x s IH]; simpl; [done |].
  destruct (Ascii.eqb x c) eqn:E.
  - intros _. apply Ascii.eqb_eq in E as ->. by exists "", s.
  - intros H. destruct (IH H) as (pre & rest & -> & Hpre).
    exists (String x pre), rest. split; [done |]. simpl. by rewrite E.
Qed.

Lemma last_occurrence (c : ascii) (s : string) :
  occurs c s = true →
  ∃ a suf, s = a +:+ String c suf ∧ occurs c suf = false.
Proof.
  induction s as [|x s IH]; simpl; [done |].
  destruct (occurs c s) eqn:O.
  - intros _. destruct (IH eq_refl) as (a & suf & -> & Hsuf).
    by exists (String x a), suf.
  - destruct (Ascii.eqb x c) eqn:E; [| done].
    intros _. apply Ascii.eqb_eq in E as ->. by exists "", s.
Qed.

(** Two ways to cut one string at a character: the earlier cut lies
    inside the head of the later one. *)
Lemma cuts_nest (c1 c2 : ascii) (pre rest a suf : string) :
  pre +:+ String c1 rest = a +:+ String c2 suf →
  (String.length pre < String.length a)%nat →
  ∃ mid, a = pre +:+ String c1 mid ∧ rest = mid +:+ String c2 suf.
Proof.
  revert a. induction pre as [|x pre IH]; intros [|y a]; simpl; try lia.
  - rewrite append_nil, append_cons. intros [= <- ->] _. by exists a.
  - rewrite !append_cons. intros [= <- H] L.
    destruct (IH a H) as (mid & -> & ->); [lia |]. by exists mid.
Qed.

Lemma cuts_meet (c1 c2 : ascii) (pre rest a suf : string) :
  pre +:+ String c1 rest = a +:+ String c2 suf →
  String.length pre = String.length a →
  c1 = c2.
Proof.
  revert a. induction pre as [|x pre IH]; intros [|y a]; simpl; try done.
  - rewrite !append_nil. by intros [= -> _].
  - rewrite !append_cons. intros [= _ H] [= L]. by apply (IH a).
Qed.

(** X1: whenever the guard of the extraction passes, the reply text splits
    into a head without an opening brace, the span, and a tail without a
    closing brace; the span begins with the first opening brace, ends with
    the last closing one, and is the slice the handler takes. *)
Theorem span_is_widest (raw_text : string) :
  no_json (find raw_text "{"%char) (rfind raw_text "}"%char) = false →
  ∃ pre body suf,
    raw_text = pre +:+ String "{"%char (body +:+ "}") +:+ suf ∧
    occurs "{"%char pre = false ∧
    occurs "}"%char suf = false ∧
    slice raw_text (find raw_text "{"%char) (rfind raw_text "}"%char + 1)
      = String "{"%char (body +:+ "}").
Proof.
  unfold no_json. intros J.
  apply orb_false_iff in J as [J Hlt]. apply orb_false_iff in J as [Hs He].
  apply Z.eqb_neq in Hs, He. apply Z.ltb_ge in Hlt.
  assert (Ho : occurs "{"%char raw_text = true).
  { destruct (occurs "{"%char raw_text) eqn:O; [done |].
    by apply find_absent_iff in O. }
  assert (Hc : occurs "}"%char raw_text = true).
  { destruct (occurs "}"%char raw_text) eqn:O; [done |].
    by apply rfind_absent_iff in O. }
  destruct (first_occurrence _ _ Ho) as (pre & rest & E1 & Hpre).
  destruct (last_occurrence _ _ Hc) as (a & suf & E2 & Hsuf).
  assert (F : find raw_text "{"%char = Z.of_nat (String.length pre)).
  { rewrite E1. unfold find. by rewrite find_from_app. }
  assert (R : rfind raw_text "}"%char = Z.of_nat (String.length a)).
  { rewrite E2. unfold rfind. by rewrite rfind_from_app. }
  assert (L : (String.length pre < String.length a)%nat).
  { destruct (decide (String.length pre = String.length a)) as [Q | Q]; [| lia].
    rewrite E1 in E2. by pose proof (cuts_meet _ _ _ _ _ _ E2 Q). }
  assert (E3 := E2). rewrite E1 in E3.
  destruct (cuts_nest _ _ _ _ _ _ E3 L) as (body & -> & ->).
  exists pre, body, suf.
  assert (T : raw_text = pre +:+ String "{"%char (body +:+ "}") +:+ suf).
  { rewrite E1. by rewrite !append_cons, (app_assoc_str body). }
  split; [exact T |]. split; [done |]. split; [done |].
  destruct (brace_span pre body suf Hpre Hsuf) as (_ & _ & _ & S).
  by rewrite <- T in S.
Qed.

Lemma span_is_widest_witness :
  ∃ pre body suf,
    widget_text = pre +:+ String "{"%char (body +:+ "}") +:+ suf ∧
    occurs "{"%char pre = false ∧
    occurs "}"%char suf = false ∧
    slice widget_text (find widget_text "{"%char) (rfind widget_text "}"%char + 1)
      = String "{"%char (body +:+ "}").
Proof.
  apply (span_is_widest widget_text). vm_compute. reflexivity.
Defined.

(** *** The calls of the decoder *)

(** X2: in any run the decoder is called at most once, and only on a text
    that begins with an opening brace and ends with a closing one. *)
Theorem decoder_sees_a_braced_span
    (generate_content : string → string → GenerateContentConfig → call_result)
    (json_loads : string → option json)
    (product_name country : string) (use_search : bool) :
  let m := fetch_from_gemini generate_content json_loads product_name country use_search in
  List.filter is_loads (log_of m) = [] ∨
  ∃ span, List.filter is_loads (log_of m) = [Loads span] ∧ braced span.
Proof.
  intros m.
  assert (M : m = run generate_content json_loads product_name country use_search)
    by reflexivity.
  rewrite M.
  destruct (run_cases generate_content product_name country use_search)
    as [[e E] | [(response & E & T) | (response & raw_text & E & T & N)]].
  - rewrite (run_raises _ json_loads _ _ _ _ E). by left.
  - rewrite (run_empty _ json_loads _ _ _ _ E T). by left.
  - rewrite (run_text _ json_loads _ _ _ _ _ E T N). unfold after_text.
    destruct (no_json _ _) eqn:J; [by left |].
    destruct (span_is_widest _ J) as (pre & body & suf & _ & _ & _ & S).
    right. exists (String "{"%char (body +:+ "}")). rewrite S.
    split; [| by exists body].
    by destruct (json_loads _) as [[]|].
Qed.

(** The reference decoder turns a text that begins with an opening brace
    into an object, or rejects it. *)
Lemma members_give_an_object (fuel : nat) (s : string) (acc : gmap string json)
    (v : json) (rest : string) :
  Json.members fuel s acc = Some (v, rest) → ∃ d, v = JObj d.
Proof.
  revert s acc. induction fuel as [|fuel IH]; intros s acc; simpl; [done |].
  destruct s as [|c r]; [done |].
  destruct (Ascii.eqb c dquote); [| done].
  destruct (Json.scan_string r) as [[key r1]|]; simpl; [| done].
  destruct (Json.skip_ws r1) as [|c1 r2]; [done |].
  destruct (Ascii.eqb c1 ":"%char) eqn:E1.
  - apply Ascii.eqb_eq in E1 as ->.
    destruct (Json.value fuel (Json.skip_ws r2)) as [[v' r3]|]; simpl; [| done].
    destruct (Json.skip_ws r3) as [|c3 r4]; [done |].
    destruct (Ascii.eqb c3 ","%char) eqn:E3.
    + apply Ascii.eqb_eq in E3 as ->. apply IH.
    + destruct (Ascii.eqb c3 "}"%char) eqn:E4.
      * apply Ascii.eqb_eq in E4 as ->. intros [= <- _]. eauto.
      * apply Ascii.eqb_neq in E3, E4.
        destruct c3 as [[] [] [] [] [] [] [] []]; done.
  - apply Ascii.eqb_neq in E1.
    destruct c1 as [[] [] [] [] [] [] [] []]; done.
Qed.

Lemma value_of_a_brace (fuel : nat) (s : string) (v : json) (rest : string) :
  Json.value fuel (String "{"%char s) = Some (v, rest) → ∃ d, v = JObj d.
Proof.
  destruct fuel as [|fuel]; simpl; [done |].
  destruct (Json.skip_ws s) as [|c r].
  - apply members_give_an_object.
  - destruct c as [[] [] [] [] [] [] [] []];
      first [apply members_give_an_object | intros [= <- _]; eauto].
Qed.

Lemma loads_of_a_brace (s : string) (v : json) :
  Json.loads (String "{"%char s) = Some v → ∃ d, v = JObj d.
Proof.
  unfold Json.loads.
  change (Json.skip_ws (String "{"%char s)) with (String "{"%char s).
  destruct (Json.value _ _) as [[v' rest]|] eqn:V; simpl; [| done].
  destruct (Json.skip_ws rest); [| done]. intros [= <-].
  by apply value_of_a_brace in V.
Qed.

(** X3: with the reference decoder the last three statements of the
    handler always find a dict: no run ends in a [TypeError]. *)
Theorem dict_operations_never_fail
    (generate_content : string → string → GenerateContentConfig → call_result)
    (product_name country : string) (use_search : bool) :
  is_type_error
    (result_of (fetch_from_gemini generate_content Json.loads product_name country
                  use_search)) = false.
Proof.
  change (fetch_from_gemini _ _ _ _ _)
    with (run generate_content Json.loads product_name country use_search).
  destruct (run_cases generate_content product_name country use_search)
    as [[e E] | [(response & E & T) | (response & raw_text & E & T & N)]].
  - by rewrite (run_raises _ Json.loads _ _ _ _ E).
  - by rewrite (run_empty _ Json.loads _ _ _ _ E T).
  - rewrite (run_text _ Json.loads _ _ _ _ _ E T N). unfold after_text.
    destruct (no_json _ _) eqn:J; [done |].
    destruct (span_is_widest _ J) as (pre & body & suf & _ & _ & _ & ->).
    destruct (Json.loads _) as [v|] eqn:L; [| done].
    by destruct (loads_of_a_brace _ _ L) as [d ->].
Qed.

(** *** What decides failure *)

(** X4: whether the handler fails, and with which exception, depends on
    the reply only through its text: two replies with the same text fail
    alike whatever their grounding metadata. *)
Theorem failure_depends_on_text_only
    (generate_content generate_content' :
       string → string → GenerateContentConfig → call_result)
    (json_loads : string → option json)
    (product_name country : string) (use_search : bool)
    (response response' : GenerateContentResponse) (e : exn) :
  outcome generate_content product_name country use_search = Returns response →
  outcome generate_content' product_name country use_search = Returns response' →
  text response = text response' →
  result_of (fetch_from_gemini generate_content json_loads product_name country
               use_search) = inl e →
  result_of (fetch_from_gemini generate_content' json_loads product_name country
               use_search) = inl e.
Proof.
  intros E E' T.
  change (fetch_from_gemini generate_content _ _ _ _)
    with (run generate_content json_loads product_name country use_search).
  change (fetch_from_gemini generate_content' _ _ _ _)
    with (run generate_content' json_loads product_name country use_search).
  destruct (text response) as [[|a raw_text]|] eqn:T1.
  - rewrite (run_empty _ _ _ _ _ _ E), (run_empty _ _ _ _ _ _ E');
      [done | by rewrite <- T | by rewrite T1].
  - assert (N : String a raw_text ≠ "") by done.
    rewrite (run_text _ _ _ _ _ _ _ E T1 N).
    rewrite (run_text _ _ _ _ _ _ _ E' (eq_sym T) N).
    unfold after_text. destruct (no_json _ _); [done |].
    by destruct (json_loads _) as [[]|].
  - rewrite (run_empty _ _ _ _ _ _ E), (run_empty _ _ _ _ _ _ E');
      [done | by rewrite <- T | by rewrite T1].
Qed.

Lemma failure_depends_on_text_only_witness :
  result_of (fetch_from_gemini
               (always (Returns (chunks_reply "{not json}" [widget_page; uncited_chunk])))
               Json.loads "Widget" "DE" true) = inl JSONDecodeError.
Proof.
  apply (failure_depends_on_text_only
           (always (Returns (text_reply "{not json}")))
           (always (Returns (chunks_reply "{not json}" [widget_page; uncited_chunk])))
           Json.loads "Widget" "DE" true
           (text_reply "{not json}")
           (chunks_reply "{not json}" [widget_page; uncited_chunk])).
  - reflexivity.
  - reflexivity.
  - reflexivity.
  - vm_compute. reflexivity.
Defined.

(** *** The two routes *)

Lemma run_fails_with_500
    (generate_content : string → string → GenerateContentConfig → call_result)
    (json_loads : string → option json)
    (product_name country : string) (use_search : bool) (e : exn) :
  result_of (run generate_content json_loads product_name country use_search) = inl e →
  http_status (run generate_content json_loads product_name country use_search)
    = Some 500 ∧
  ∀ status_code detail, e = HTTPException status_code detail → status_code = 500.
Proof.
  destruct (run_cases generate_content product_name country use_search)
    as [[x E] | [(response & E & T) | (response & raw_text & E & T & N)]].
  - rewrite (run_raises _ json_loads _ _ _ _ E). unfold http_status, result_of. simpl.
    intros [= <-]. split; [done | by intros ? ? [= <- _]].
  - rewrite (run_empty _ json_loads _ _ _ _ E T). unfold http_status, result_of. simpl.
    intros [= <-]. split; [done | by intros ? ? [= <- _]].
  - rewrite (run_text _ json_loads _ _ _ _ _ E T N). unfold after_text.
    destruct (no_json _ _).
    + unfold http_status, result_of. simpl.
      intros [= <-]. split; [done | by intros ? ? [= <- _]].
    + destruct (json_loads _) as [[]|]; unfold http_status, result_of; simpl;
        intros [= <-]; (split; [done | by intros ? ? ?]).
Qed.

(** X5: the two routes fail only with status 500: whenever the POST or
    the GET route ends in an exception the response has status 500, and an
    [HTTPException] that leaves either route has status code 500. *)
Theorem routes_fail_with_500
    (generate_content : string → string → GenerateContentConfig → call_result)
    (json_loads : string → option json)
    (request : ProductRequest) (productName country : string) (useSearch : bool) :
  let post := fetch_product_details_post generate_content json_loads request useSearch in
  let get := fetch_product_details_get generate_content json_loads productName country
               useSearch in
  (∀ e, result_of post = inl e → http_status post = Some 500) ∧
  (∀ e, result_of get = inl e → http_status get = Some 500) ∧
  (∀ status_code detail,
      result_of post = inl (HTTPException status_code detail) ∨
      result_of get = inl (HTTPException status_code detail) →
      status_code = 500).
Proof.
  intros post get. split; [| split].
  - intros e H. by apply (run_fails_with_500 _ _ _ _ _ _ H).
  - intros e H. by apply (run_fails_with_500 _ _ _ _ _ _ H).
  - intros status_code detail [H | H];
      by apply (proj2 (run_fails_with_500 _ _ _ _ _ _ H) status_code detail).
Qed.

Lemma routes_fail_with_500_witness :
  let post := fetch_product_details_post (always (Returns (text_reply "{not json}")))
                Json.loads {| productName := "Widget"; country := "DE" |} true in
  let get := fetch_product_details_get (always (Returns (text_reply "no braces")))
               Json.loads "Widget" "DE" false in
  http_status post = Some 500 ∧ http_status get = Some 500.
Proof.
  pose proof (routes_fail_with_500 (always (Returns (text_reply "{not json}")))
                Json.loads {| productName := "Widget"; country := "DE" |}
                "Widget" "DE" true) as [P _].
  pose proof (routes_fail_with_500 (always (Returns (text_reply "no braces")))
                Json.loads {| productName := "Widget"; country := "DE" |}
                "Widget" "DE" false) as (_ & G & _).
  split.
  - apply (P JSONDecodeError). vm_compute. reflexivity.
  - apply (G (HTTPException 500 "No valid JSON found in response")).
    vm_compute. reflexivity.
Defined.

(** *** The sources *)

Lemma chunk_step_shaped (sources sources' : list json) (chunk : GroundingChunk) :
  Forall source_shaped sources →
  chunk_step sources chunk = Some sources' →
  Forall source_shaped sources'.
Proof.
  unfold chunk_step. intros F.
  destruct (web chunk) as [|[w|]]; [by intros [= <-] | | done].
  destruct (uri w) as [[|a u]|] eqn:U, (title w) as [[|b t]|] eqn:T; simpl;
    intros [= <-]; try done.
  apply Forall_app. split; [done |]. apply Forall_singleton.
  exists a, u, b, t. unfold source_entry. by rewrite U, T.
Qed.

Lemma for_chunks_shaped (chunks : list GroundingChunk) (sources sources' : list json) :
  Forall source_shaped sources →
  for_chunks chunks sources = Some sources' →
  Forall source_shaped sources'.
Proof.
  revert sources. induction chunks as [|chunk chunks IH]; intros sources F; simpl.
  - by intros [= <-].
  - destruct (chunk_step sources chunk) as [s1|] eqn:S; simpl; [| done].
    apply IH. by apply (chunk_step_shaped _ _ _ F S).
Qed.

Lemma grounding_sources_shaped (response : GenerateContentResponse) :
  Forall source_shaped (grounding_sources response).
Proof.
  unfold grounding_sources, read_grounding.
  destruct (grounding_of response) as [chunks|]; simpl; [| done].
  destruct (for_chunks chunks []) as [l|] eqn:F; [| done].
  by apply (for_chunks_shaped _ _ _ (Forall_nil_2 _) F).
Qed.

(** X6: every record the handler returns has a "sources" key, whose value
    is a list in which every entry is a dict of exactly a non-empty "uri"
    string and a non-empty "title" string, whatever the reply held. *)
Theorem returned_sources_are_well_formed
    (generate_content : string → string → GenerateContentConfig → call_result)
    (json_loads : string → option json)
    (product_name country : string) (use_search : bool)
    (record : gmap string json) :
  result_of (fetch_from_gemini generate_content json_loads product_name country use_search)
    = inr record →
  ∃ sources,
    record !! "sources" = Some (JArr sources) ∧
    Forall source_shaped sources.
Proof.
  intros H. apply run_success in H as (response & raw_text & d & _ & _ & _ & _ & _ & ->).
  exists (grounding_sources response).
  split; [apply finish_sources | apply grounding_sources_shaped].
Qed.

Lemma returned_sources_are_well_formed_witness :
  let chunks := [widget_page; untitled_page; webless_chunk; unnamed_page; shop_page] in
  ∃ sources,
    finish widget_record (grounding_sources (chunks_reply widget_text chunks))
      !! "sources" = Some (JArr sources) ∧
    Forall source_shaped sources.
Proof.
  intros chunks.
  apply (returned_sources_are_well_formed
           (always (Returns (chunks_reply widget_text chunks)))
           Json.loads "Widget" "DE" true).
  vm_compute. reflexivity.
Defined.

(** X7: the sources are all or nothing.  When the reply carries a list of
    chunks, the sequence the handler keeps is empty if some chunk has
    [web] equal to [None], and otherwise holds the entry of every cited
    chunk, in order: never a part of them. *)
Theorem sources_are_all_or_nothing
    (response : GenerateContentResponse) (chunks : list GroundingChunk) :
  grounding_of response = Some chunks →
  grounding_sources response
    = if existsb web_is_none chunks then [] else cited_sources chunks.
Proof.
  intros G. unfold grounding_sources, read_grounding. rewrite G. simpl.
  destruct (existsb web_is_none chunks) eqn:X.
  - rewrite for_chunks_unreadable; [done |].
    apply existsb_exists in X as (chunk & I & W).
    apply Exists_exists. exists chunk. split; [by apply list_elem_of_In |].
    unfold web_is_none in W. by destruct (web chunk) as [|[w|]].
  - rewrite for_chunks_readable; [done |].
    apply Forall_forall. intros chunk I R.
    assert (W : web_is_none chunk = true) by (unfold web_is_none; by rewrite R).
    assert (X' : existsb web_is_none chunks = true).
    { apply existsb_exists. exists chunk. split; [by apply list_elem_of_In | done]. }
    by rewrite X in X'.
Qed.

Lemma sources_are_all_or_nothing_witness :
  grounding_sources (chunks_reply widget_text [widget_page; shop_page; uncited_chunk]) = [] ∧
  grounding_sources (chunks_reply widget_text [widget_page; untitled_page; shop_page])
    = cited_sources [widget_page; untitled_page; shop_page].
Proof.
  split.
  - exact (sources_are_all_or_nothing
             (chunks_reply widget_text [widget_page; shop_page; uncited_chunk])
             [widget_page; shop_page; uncited_chunk] eq_refl).
  - exact (sources_are_all_or_nothing
             (chunks_reply widget_text [widget_page; untitled_page; shop_page])
             [widget_page; untitled_page; shop_page] eq_refl).
Defined.

(** *** The prompt *)





(** *** Start-up *)

Section StartupFacts.
Import Startup.

(** A character that lowers to [x] is [x] itself or what [x] lowers
    from: for a lower-case letter its capital, for anything else nothing
    more. *)
Lemma lower_char_letter (c x : ascii) :
  lower_char c = x → c = x ∨ c = ascii_of_N (N_of_ascii x - 32).
Proof.
  intros <-. destruct c as [[] [] [] [] [] [] [] []]; vm_compute; auto.
Qed.

End StartupFacts.

(** X9: start-up succeeds exactly when [API_KEY] is set and non-empty and,
    if the Vertex AI flag is on, [GOOGLE_CLOUD_PROJECT] and
    [GOOGLE_CLOUD_LOCATION] are both set and non-empty.  So the API key is
    demanded in Vertex AI mode too. *)
Theorem startup_succeeds_iff (environ : gmap string string) :
  (∃ client, Startup.startup environ = inr client) ↔
  truthy (environ !! "API_KEY") = true ∧
  (Startup.use_vertexai environ = true →
   truthy (environ !! "GOOGLE_CLOUD_PROJECT") = true ∧
   truthy (environ !! "GOOGLE_CLOUD_LOCATION") = true).
Proof.
  unfold Startup.startup, Startup.getenv.
  destruct (truthy (environ !! "API_KEY")); simpl.
  - destruct (Startup.use_vertexai environ).
    + destruct (truthy (environ !! "GOOGLE_CLOUD_PROJECT")),
        (truthy (environ !! "GOOGLE_CLOUD_LOCATION")); simpl;
        (split; [intros [client H] | intros [_ H]]);
        first [done | by eauto | by destruct (H eq_refl)].
    + split; [done | eauto].
  - split; [by intros [client H] | by intros [H _]].
Qed.

Lemma startup_succeeds_iff_witness :
  ∃ client, Startup.startup Startup.vertex_environ = inr client.
Proof.
  apply (startup_succeeds_iff Startup.vertex_environ).
  split; [vm_compute; reflexivity |].
  intros _. split; vm_compute; reflexivity.
Defined.

(** X10: without a usable [API_KEY] (unset or empty) start-up raises
    "API_KEY environment variable is not set", whatever the other
    variables hold; with the key and the Vertex AI flag on but the project
    or the location missing, it raises the error that names both. *)
Theorem startup_errors (environ : gmap string string) :
  (truthy (environ !! "API_KEY") = false →
   Startup.startup environ
     = inl (Startup.RuntimeError "API_KEY environment variable is not set")) ∧
  (truthy (environ !! "API_KEY") = true →
   Startup.use_vertexai environ = true →
   truthy (environ !! "GOOGLE_CLOUD_PROJECT") = false ∨
   truthy (environ !! "GOOGLE_CLOUD_LOCATION") = false →
   Startup.startup environ
     = inl (Startup.RuntimeError
              "GOOGLE_CLOUD_PROJECT and GOOGLE_CLOUD_LOCATION must be set when using Vertex AI")).
Proof.
  unfold Startup.startup, Startup.getenv. split.
  - by intros ->.
  - intros -> -> [-> | ->]; simpl; [done |]. by rewrite orb_true_r.
Qed.

Lemma startup_errors_witness :
  Startup.startup (delete "API_KEY" Startup.vertex_environ)
    = inl (Startup.RuntimeError "API_KEY environment variable is not set") ∧
  Startup.startup (<["GOOGLE_CLOUD_LOCATION" := ""]> Startup.vertex_environ)
    = inl (Startup.RuntimeError
             "GOOGLE_CLOUD_PROJECT and GOOGLE_CLOUD_LOCATION must be set when using Vertex AI").
Proof.
  split.
  - apply (proj1 (startup_errors (delete "API_KEY" Startup.vertex_environ))).
    vm_compute. reflexivity.
  - apply (proj2 (startup_errors
                    (<["GOOGLE_CLOUD_LOCATION" := ""]> Startup.vertex_environ))).
    + vm_compute. reflexivity.
    + vm_compute. reflexivity.
    + right. vm_compute. reflexivity.
Defined.

(** X11: the client start-up builds follows the mode.  With the Vertex AI
    flag on it is given [vertexai=True], the project and the location of
    the environment and API version "v1", and no API key; with the flag
    off it is given the API key of the environment and nothing else. *)
Theorem client_follows_mode (environ : gmap string string) (client : Startup.ClientArgs) :
  Startup.startup environ = inr client →
  if Startup.use_vertexai environ
  then client = {| Startup.vertexai := Some true;
                   Startup.api_key := None;
                   Startup.project := environ !! "GOOGLE_CLOUD_PROJECT";
                   Startup.location := environ !! "GOOGLE_CLOUD_LOCATION";
                   Startup.http_options := Some {| Startup.api_version := "v1" |} |} ∧
       truthy (Startup.project client) = true ∧
       truthy (Startup.location client) = true
  else client = {| Startup.vertexai := None;
                   Startup.api_key := environ !! "API_KEY";
                   Startup.project := None;
                   Startup.location := None;
                   Startup.http_options := None |} ∧
       truthy (Startup.api_key client) = true.
Proof.
  unfold Startup.startup, Startup.getenv.
  destruct (truthy (environ !! "API_KEY")) eqn:K; simpl; [| done].
  destruct (Startup.use_vertexai environ).
  - destruct (truthy (environ !! "GOOGLE_CLOUD_PROJECT")) eqn:P,
      (truthy (environ !! "GOOGLE_CLOUD_LOCATION")) eqn:L; simpl; try done.
    by intros [= <-].
  - by intros [= <-].
Qed.

Lemma client_follows_mode_witness :
  let client := {| Startup.vertexai := Some true;
                   Startup.api_key := None;
                   Startup.project := Some "acme-project";
                   Startup.location := Some "europe-west1";
                   Startup.http_options := Some {| Startup.api_version := "v1" |} |} in
  Startup.startup Startup.vertex_environ = inr client ∧
  Startup.use_vertexai Startup.vertex_environ = true ∧
  truthy (Startup.project client) = true ∧
  truthy (Startup.location client) = true.
Proof.
  intros client.
  pose proof (client_follows_mode Startup.vertex_environ client eq_refl) as H.
  change (Startup.use_vertexai Startup.vertex_environ) with true in H.
  destruct H as (_ & P & L). repeat split; assumption.
Defined.

(** X12: the Vertex AI flag is on exactly when
    [GOOGLE_GENAI_USE_VERTEXAI] is set to "1" or to the word true in any
    mix of upper and lower case (true, True, TRUE, tRuE, ...); any other
    value, and the variable being unset, leave it off. *)
Theorem vertex_flag_ignores_case (environ : gmap string string) :
  Startup.use_vertexai environ = true ↔
  ∃ v, environ !! "GOOGLE_GENAI_USE_VERTEXAI" = Some v ∧
       (v = "1" ∨
        ∃ t r u e,
          v = String t (String r (String u (String e ""))) ∧
          (t = "t"%char ∨ t = "T"%char) ∧
          (r = "r"%char ∨ r = "R"%char) ∧
          (u = "u"%char ∨ u = "U"%char) ∧
          (e = "e"%char ∨ e = "E"%char)).
Proof.
  unfold Startup.use_vertexai, Startup.getenv_default.
  rewrite bool_decide_eq_true.
  destruct (environ !! "GOOGLE_GENAI_USE_VERTEXAI") as [v|]; simpl.
  - split.
    + intros H. exists v. split; [done |].
      apply elem_of_cons in H as [H | H];
        [| apply elem_of_cons in H as [H | H]; [| by apply elem_of_nil in H]].
      * right. destruct v as [|t [|r [|u [|e [|? ?]]]]]; try done.
        simpl in H. injection H as Ht Hr Hu He.
        exists t, r, u, e. split; [done |].
        repeat split; by apply lower_char_letter.
      * left. destruct v as [|a [|? ?]]; try done.
        simpl in H. injection H as Ha. f_equal.
        destruct (lower_char_letter _ _ Ha) as [-> | ->]; [done |].
        by vm_compute in Ha.
    + intros (w & [= <-] & [-> | (t & r & u & e & -> & Ht & Hr & Hu & He)]).
      * vm_compute. apply elem_of_cons. right. apply elem_of_cons. by left.
      * destruct Ht as [-> | ->], Hr as [-> | ->], Hu as [-> | ->], He as [-> | ->];
          vm_compute; apply elem_of_cons; by left.
  - split.
    + intros H. exfalso. revert H. vm_compute.
      intros H. apply elem_of_cons in H as [H | H]; [done |].
      apply elem_of_cons in H as [H | H]; [done | by apply elem_of_nil in H].
    + by intros (w & ? & _).
Qed.

Lemma vertex_flag_ignores_case_witness :
  Startup.use_vertexai Startup.vertex_environ = true.
Proof.
  apply (vertex_flag_ignores_case Startup.vertex_environ).
  exists "TRUE". split; [reflexivity |]. right.
  exists "T"%char, "R"%char, "U"%char, "E"%char. repeat split; by right.
Defined.
